(** * The analyzeShardKey command: orchestration of the two analysis phases

  A shallow embedding of [src/mongo/db/s/analyze_shard_key_cmd.cpp]
  (class [AnalyzeShardKeyCmd::Invocation]): the four precondition checks of
  [typedRun], the two gated analysis phases, the assembly of the response and
  [doCheckAuthorization].

  The command reads its surroundings (replication coordinator, cluster role,
  fail points, the multitenancy flag) and calls collaborators that may throw.
  Both are modelled by an environment [Env] of answers together with a small
  writer-and-exception monad [M]: every consultation of the surroundings and
  every collaborator call is appended to a trace of [Event]s, and a thrown
  exception ends the computation with the trace built so far. *)

From Stdlib Require Import String Ascii List ZArith Bool Lia.
Import ListNotations.
Local Open Scope string_scope.
Local Open Scope list_scope.

(** ** Error codes, status values and exceptions *)

Module ErrorCodes.
(** The codes this file names, and [Other] for every code a collaborator may
    raise that this file does not name. [OK] is not a member: a status that
    is OK carries no error at all (see [Status]). *)
Inductive Error : Type :=
| Unauthorized
| IllegalOperation
| InvalidOptions
| InvalidNamespace
| Other (code : Z).
End ErrorCodes.

(** What a non-OK status or a thrown exception carries. *)
Record ErrorInfo : Type := mkErrorInfo {
code : ErrorCodes.Error;
reason : string
}.

(** [Status]: OK, or an error. *)
Inductive Status : Type :=
| Status_OK
| Status_Error (e : ErrorInfo).

(** [StatusWith<T>]: an error, or a value. *)
Inductive StatusWith (T : Type) : Type :=
| StatusWith_Error (e : ErrorInfo)
| StatusWith_Value (v : T).
Arguments StatusWith_Error {T} e.
Arguments StatusWith_Value {T} v.

(** The result of running a piece of code: it returns, or it throws. *)
Inductive Outcome (A : Type) : Type :=
| Returned (a : A)
| Threw (e : ErrorInfo).
Arguments Returned {A} a.
Arguments Threw {A} e.

(** An optional field of a generated record is read as a [boost::optional<T>],
    and [if (opt)] converts it to [true] exactly when it holds a value,
    whatever the value is: [if (response.getNumOrphanDocs())] asks whether a
    count is there, not whether it is nonzero. *)
Definition engaged {A : Type} (o : option A) : bool :=
match o with
| Some _ => true
| None => false
end.

(** ** The fixed advisory text *)

(** The double-quote character. *)
Definition dquote : string := String (ascii_of_nat 34) EmptyString.

Module KeyCharacteristicsMetricsFieldNames.
(** Modelled from the spec: the field-name constants of the generated class
    [KeyCharacteristicsMetrics] (the generated header
    [analyze_shard_key_cmd_gen.h] is not among the sources); each constant
    is the name of the field it stands for. *)
Definition kNumOrphanDocsFieldName : string := "numOrphanDocs".
Definition kNumDocsFieldName : string := "numDocs".
Definition kNumDistinctValuesFieldName : string := "numDistinctValues".
Definition kMostCommonValuesFieldName : string := "mostCommonValues".
End KeyCharacteristicsMetricsFieldNames.
Import KeyCharacteristicsMetricsFieldNames.

Definition kOrphanDocsWarningMessage : string :=
"If " ++ dquote ++
kNumOrphanDocsFieldName ++ dquote ++ " is large relative to " ++ dquote ++
kNumDocsFieldName ++
dquote ++ ", you may want to rerun the command at some other time to get more accurate " ++ dquote ++
kNumDistinctValuesFieldName ++ dquote ++ " and " ++ dquote ++
kMostCommonValuesFieldName ++ dquote ++ " metrics.".

(** ** Fail points, privileges *)

Inductive FailPoint : Type :=
| analyzeShardKeySkipCalcalutingKeyCharactericsMetrics
| analyzeShardKeySkipCalcalutingReadWriteDistributionMetrics.

Inductive ActionType : Type :=
| shardCollection
| otherAction (id : nat).

Section AnalyzeShardKey.

(** Types this file only passes around. *)
Context {NamespaceString UUID BSONObj : Type}.
Context {ReadDistributionMetrics WriteDistributionMetrics : Type}.

Inductive ResourcePattern : Type :=
| forExactNamespace (nss : NamespaceString)
| forAnyNormalResource
| forClusterResource.

(** *** Request and response *)

(** The request [AnalyzeShardKey]: the command parameter is the namespace,
    [key] the candidate shard key. *)
Record Request : Type := mkRequest {
  getCommandParameter : NamespaceString;
  getKey : BSONObj
}.

(** Modelled from the spec: the generated record types
    [KeyCharacteristicsMetrics] and [AnalyzeShardKeyResponse] (declared in
    the generated header [analyze_shard_key_cmd_gen.h], which is not among
    the sources). The metrics hold the counts of documents, of distinct key
    values and of orphan documents and the most common values; the orphan
    count may be absent. Every field of the response is optional, and a
    default-constructed response has none of them. *)
Record KeyCharacteristicsMetrics : Type := mkKeyCharacteristicsMetrics {
  numDocs : Z;
  numDistinctValues : Z;
  numOrphanDocs : option Z;
  mostCommonValues : list (BSONObj * Z)
}.

Record Response : Type := mkResponse {
  getKeyCharacteristics : option KeyCharacteristicsMetrics;
  getReadDistribution : option ReadDistributionMetrics;
  getWriteDistribution : option WriteDistributionMetrics;
  getNote : option string
}.

(** [Response response;] *)
Definition Response_default : Response :=
  mkResponse None None None None.

Definition setKeyCharacteristics (r : Response) (m : KeyCharacteristicsMetrics) : Response :=
  mkResponse (Some m) (getReadDistribution r) (getWriteDistribution r) (getNote r).

Definition setReadDistribution (r : Response) (d : ReadDistributionMetrics) : Response :=
  mkResponse (getKeyCharacteristics r) (Some d) (getWriteDistribution r) (getNote r).

Definition setWriteDistribution (r : Response) (d : WriteDistributionMetrics) : Response :=
  mkResponse (getKeyCharacteristics r) (getReadDistribution r) (Some d) (getNote r).

Definition setNote (r : Response) (s : string) : Response :=
  mkResponse (getKeyCharacteristics r) (getReadDistribution r) (getWriteDistribution r) (Some s).

(** The response's getter of the orphan count reads it off the metrics the
    response holds. *)
Definition getNumOrphanDocs (r : Response) : option Z :=
  match getKeyCharacteristics r with
  | Some m => numOrphanDocs m
  | None => None
  end.

(** *** The surroundings of one invocation *)

(** What the surroundings answer during one invocation. Each of them is
    consulted at most once per invocation (lemma [typedRun_consults_once]),
    so one answer per question describes the invocation completely. *)
Record Env : Type := mkEnv {
  (* repl::ReplicationCoordinator::get(opCtx)->isReplEnabled() *)
  isReplEnabled : bool;
  (* serverGlobalParams.clusterRole.exclusivelyHasConfigRole() *)
  exclusivelyHasConfigRole : bool;
  validateNamespace : NamespaceString -> Status;
  validateCollectionOptionsLocally : NamespaceString -> StatusWith UUID;
  (* fp.shouldFail() *)
  shouldFail : FailPoint -> bool;
  gMultitenancySupport : bool;
  calculateKeyCharacteristicsMetrics :
    NamespaceString -> UUID -> BSONObj -> Outcome KeyCharacteristicsMetrics;
  calculateReadWriteDistributionMetrics :
    NamespaceString -> UUID -> BSONObj ->
    Outcome (ReadDistributionMetrics * WriteDistributionMetrics);
  (* AuthorizationSession::isAuthorizedForActionsOnResource *)
  isAuthorizedForActionsOnResource : ResourcePattern -> ActionType -> bool
}.

(** What an invocation does to its surroundings, in order. *)
Inductive Event : Type :=
| EvIsReplEnabled
| EvExclusivelyHasConfigRole
| EvValidateNamespace (nss : NamespaceString)
| EvValidateCollectionOptionsLocally (nss : NamespaceString)
| EvLog (id : Z) (msg : string) (nss : NamespaceString) (key : BSONObj)
| EvShouldFail (fp : FailPoint)
| EvCalculateKeyCharacteristicsMetrics (nss : NamespaceString) (uuid : UUID) (key : BSONObj)
| EvCalculateReadWriteDistributionMetrics (nss : NamespaceString) (uuid : UUID) (key : BSONObj)
| EvIsAuthorized (res : ResourcePattern) (act : ActionType).

Definition Trace : Type := list Event.

(** *** The monad: a trace, and a value or an exception *)

Definition M (A : Type) : Type := (Trace * Outcome A)%type.

Definition ret {A : Type} (a : A) : M A := ([], Returned a).

Definition bind {A B : Type} (m : M A) (f : A -> M B) : M B :=
  match m with
  | (t1, Returned a) => let (t2, o) := f a in (t1 ++ t2, o)
  | (t1, Threw e) => (t1, Threw e)
  end.

Definition emit (ev : Event) : M unit := ([ev], Returned tt).

Definition throw {A : Type} (e : ErrorInfo) : M A := ([], Threw e).

(** A collaborator call: the call is recorded, then its outcome is the
    outcome of the computation. *)
Definition call {A : Type} (ev : Event) (o : Outcome A) : M A := ([ev], o).

(** Consulting the surroundings: the question is recorded, the answer
    returned. *)
Definition query {A : Type} (ev : Event) (a : A) : M A := ([ev], Returned a).

Definition trace {A : Type} (m : M A) : Trace := fst m.
Definition outcome {A : Type} (m : M A) : Outcome A := snd m.

Notation "x <- c1 ;; c2" := (bind c1 (fun x => c2))
  (at level 61, c1 at next level, right associativity).
Notation "' pat <- c1 ;; c2" := (bind c1 (fun x => match x with pat => c2 end))
  (at level 61, pat pattern, c1 at next level, right associativity).
Notation "c1 ;; c2" := (bind c1 (fun _ => c2))
  (at level 61, right associativity).

(** [uassert(code, msg, cond)]: throws [code] with [msg] unless [cond]. *)
Definition uassert (c : ErrorCodes.Error) (msg : string) (cond : bool) : M unit :=
  if cond then ret tt else throw (mkErrorInfo c msg).

(** [uassertStatusOK(status)]: throws the status unless it is OK. *)
Definition uassertStatusOK (s : Status) : M unit :=
  match s with
  | Status_OK => ret tt
  | Status_Error e => throw e
  end.

(** [uassertStatusOK(statusWith)]: the value, or throws the status. *)
Definition uassertStatusOK_value {T : Type} (sw : StatusWith T) : M T :=
  match sw with
  | StatusWith_Value v => ret v
  | StatusWith_Error e => throw e
  end.

(** *** The invocation *)

Definition ns (request : Request) : NamespaceString :=
  getCommandParameter request.

Definition kNotStandalone : string :=
  "analyzeShardKey command is not supported on a standalone mongod".
Definition kNotConfigsvr : string :=
  "analyzeShardKey command is not supported on a configsvr mongod".

Definition typedRun (env : Env) (request : Request) : M Response :=
  repl <- query EvIsReplEnabled (isReplEnabled env) ;;
  uassert ErrorCodes.IllegalOperation kNotStandalone repl ;;
  config <- query EvExclusivelyHasConfigRole (exclusivelyHasConfigRole env) ;;
  uassert ErrorCodes.IllegalOperation kNotConfigsvr (negb config) ;;

  let nss := ns request in
  let key := getKey request in
  nssStatus <- query (EvValidateNamespace nss) (validateNamespace env nss) ;;
  uassertStatusOK nssStatus ;;
  swUuid <- query (EvValidateCollectionOptionsLocally nss)
                  (validateCollectionOptionsLocally env nss) ;;
  collUuid <- uassertStatusOK_value swUuid ;;

  emit (EvLog 6875001 "Start analyzing shard key" nss key) ;;

  let response := Response_default in

  (* Calculate metrics about the characteristics of the shard key. *)
  skipKeyCharacteristics <-
    query (EvShouldFail analyzeShardKeySkipCalcalutingKeyCharactericsMetrics)
          (shouldFail env analyzeShardKeySkipCalcalutingKeyCharactericsMetrics) ;;
  response <-
    (if negb skipKeyCharacteristics then
       keyCharacteristics <-
         call (EvCalculateKeyCharacteristicsMetrics nss collUuid key)
              (calculateKeyCharacteristicsMetrics env nss collUuid key) ;;
       let response := setKeyCharacteristics response keyCharacteristics in
       (* if (response.getNumOrphanDocs()) *)
       if engaged (getNumOrphanDocs response)
       then ret (setNote response kOrphanDocsWarningMessage)
       else ret response
     else ret response) ;;

  (* Calculate metrics about the read and write distribution from sampled
     queries. Query sampling is not supported on multitenant replica sets.
     The fail point is only evaluated when the flag is off (&&). *)
  runReadWriteDistribution <-
    (if negb (gMultitenancySupport env) then
       skipReadWriteDistribution <-
         query (EvShouldFail analyzeShardKeySkipCalcalutingReadWriteDistributionMetrics)
               (shouldFail env analyzeShardKeySkipCalcalutingReadWriteDistributionMetrics) ;;
       ret (negb skipReadWriteDistribution)
     else ret false) ;;
  response <-
    (if (runReadWriteDistribution : bool) then
       ' (readDistribution, writeDistribution) <-
         call (EvCalculateReadWriteDistributionMetrics nss collUuid key)
              (calculateReadWriteDistributionMetrics env nss collUuid key) ;;
       let response := setReadDistribution response readDistribution in
       let response := setWriteDistribution response writeDistribution in
       ret response
     else ret response) ;;

  ret response.

Definition doCheckAuthorization (env : Env) (request : Request) : M unit :=
  authorized <-
    query (EvIsAuthorized (forExactNamespace (ns request)) shardCollection)
          (isAuthorizedForActionsOnResource env
             (forExactNamespace (ns request)) shardCollection) ;;
  uassert ErrorCodes.Unauthorized "Unauthorized" authorized.

(** Modelled from the spec: the dispatch of an invocation by the command
    framework ([InvocationBase] and its caller, declared in
    [mongo/db/commands.h], which is not among the sources). Authorization
    is checked first; the command body runs only when the check passes. *)
Definition runInvocation (env : Env) (request : Request) : M Response :=
  doCheckAuthorization env request ;;
  typedRun env request.

(** *** Reading a trace *)

Definition isKeyCharacteristicsCall (ev : Event) : bool :=
  match ev with
  | EvCalculateKeyCharacteristicsMetrics _ _ _ => true
  | _ => false
  end.

Definition isReadWriteDistributionCall (ev : Event) : bool :=
  match ev with
  | EvCalculateReadWriteDistributionMetrics _ _ _ => true
  | _ => false
  end.

(** The events of the first phase: its gate and its collaborator. *)
Definition isPhase1Event (ev : Event) : bool :=
  match ev with
  | EvShouldFail analyzeShardKeySkipCalcalutingKeyCharactericsMetrics => true
  | EvCalculateKeyCharacteristicsMetrics _ _ _ => true
  | _ => false
  end.

(** The events of the second phase: its gate and its collaborator. *)
Definition isPhase2Event (ev : Event) : bool :=
  match ev with
  | EvShouldFail analyzeShardKeySkipCalcalutingReadWriteDistributionMetrics => true
  | EvCalculateReadWriteDistributionMetrics _ _ _ => true
  | _ => false
  end.

(** The events of the four precondition checks. *)
Definition isPreconditionEvent (ev : Event) : bool :=
  match ev with
  | EvIsReplEnabled | EvExclusivelyHasConfigRole => true
  | EvValidateNamespace _ | EvValidateCollectionOptionsLocally _ => true
  | _ => false
  end.

Definition invoked (p : Event -> bool) (t : Trace) : bool := existsb p t.

Definition calls (p : Event -> bool) (t : Trace) : nat := length (filter p t).

(** No event of the first phase comes after an event of the second. *)
Fixpoint phase1_before_phase2 (t : Trace) : bool :=
  match t with
  | [] => true
  | ev :: t' =>
      (if isPhase2Event ev then negb (existsb isPhase1Event t') else true)
      && phase1_before_phase2 t'
  end.

(** All four precondition checks pass. *)
Definition preconditionsHold (env : Env) (request : Request) : bool :=
  isReplEnabled env
  && negb (exclusivelyHasConfigRole env)
  && match validateNamespace env (ns request) with
     | Status_OK => true
     | Status_Error _ => false
     end
  && match validateCollectionOptionsLocally env (ns request) with
     | StatusWith_Value _ => true
     | StatusWith_Error _ => false
     end.

(** The first phase is entered and its collaborator throws. *)
Definition keyCharacteristicsFails (env : Env) (request : Request) : bool :=
  negb (shouldFail env analyzeShardKeySkipCalcalutingKeyCharactericsMetrics)
  && match validateCollectionOptionsLocally env (ns request) with
     | StatusWith_Value collUuid =>
         match calculateKeyCharacteristicsMetrics env (ns request) collUuid
                 (getKey request) with
         | Threw _ => true
         | Returned _ => false
         end
     | StatusWith_Error _ => false
     end.

(** *** Changing one answer of the surroundings *)

Definition FailPoint_eqb (a b : FailPoint) : bool :=
  match a, b with
  | analyzeShardKeySkipCalcalutingKeyCharactericsMetrics,
    analyzeShardKeySkipCalcalutingKeyCharactericsMetrics => true
  | analyzeShardKeySkipCalcalutingReadWriteDistributionMetrics,
    analyzeShardKeySkipCalcalutingReadWriteDistributionMetrics => true
  | _, _ => false
  end.

(** The surroundings [env] with fail point [fp] switched to [b]. *)
Definition setFailPoint (env : Env) (fp : FailPoint) (b : bool) : Env :=
  mkEnv (isReplEnabled env) (exclusivelyHasConfigRole env)
        (validateNamespace env) (validateCollectionOptionsLocally env)
        (fun fp' => if FailPoint_eqb fp' fp then b else shouldFail env fp')
        (gMultitenancySupport env)
        (calculateKeyCharacteristicsMetrics env)
        (calculateReadWriteDistributionMetrics env)
        (isAuthorizedForActionsOnResource env).

(** The surroundings [env] with the multitenancy flag set to [b]. *)
Definition setMultitenancySupport (env : Env) (b : bool) : Env :=
  mkEnv (isReplEnabled env) (exclusivelyHasConfigRole env)
        (validateNamespace env) (validateCollectionOptionsLocally env)
        (shouldFail env)
        b
        (calculateKeyCharacteristicsMetrics env)
        (calculateReadWriteDistributionMetrics env)
        (isAuthorizedForActionsOnResource env).

(** The advisory text, spelled out. *)
Definition quoted (s : string) : string := dquote ++ s ++ dquote.

Definition advisoryText : string :=
  "If " ++ quoted "numOrphanDocs" ++ " is large relative to " ++ quoted "numDocs" ++
  ", you may want to rerun the command at some other time to get more accurate " ++
  quoted "numDistinctValues" ++ " and " ++ quoted "mostCommonValues" ++ " metrics.".

(** ** Proof tools *)

Arguments kOrphanDocsWarningMessage : simpl never.
Arguments kNotStandalone : simpl never.
Arguments kNotConfigsvr : simpl never.

(** Unfolds the monad, leaving the first question whose answer is needed. *)
Ltac unfold_run :=
  unfold runInvocation, typedRun, doCheckAuthorization, trace, outcome,
    bind, query, call, emit, ret, throw,
    uassert, uassertStatusOK, uassertStatusOK_value;
  simpl.

(** Follows [typedRun env request] through every answer [env] can give. *)
Ltac run_cases env request :=
  unfold_run;
  destruct (isReplEnabled env) eqn:Hrepl; simpl;
  [ destruct (exclusivelyHasConfigRole env) eqn:Hconfig; simpl;
    [ | destruct (validateNamespace env (ns request)) as [|nsErr] eqn:Hnss; simpl;
        [ destruct (validateCollectionOptionsLocally env (ns request))
            as [uuidErr|collUuid] eqn:Huuid; simpl;
          [ | destruct (shouldFail env analyzeShardKeySkipCalcalutingKeyCharactericsMetrics)
                eqn:Hskip1; simpl;
              [ | destruct (calculateKeyCharacteristicsMetrics env (ns request) collUuid
                              (getKey request)) as [metrics|kcErr] eqn:Hkc; simpl;
                  [ unfold getNumOrphanDocs; simpl;
                    destruct (numOrphanDocs metrics) as [orphans|] eqn:Horphans; simpl | ] ];
              try (destruct (gMultitenancySupport env) eqn:Hmt; simpl;
                   [ | destruct (shouldFail env
                          analyzeShardKeySkipCalcalutingReadWriteDistributionMetrics)
                          eqn:Hskip2; simpl;
                       [ | destruct (calculateReadWriteDistributionMetrics env (ns request)
                                       collUuid (getKey request))
                             as [[readDistribution writeDistribution]|rwErr] eqn:Hrw;
                           simpl ] ])
          ]
        | ]
    ]
  | ].

(** Follows a successful invocation [H : typedRun env request = (t, Returned r)]
    through every answer, leaving [t] and [r] as the code built them. *)
Ltac success_cases env request H :=
  revert H; run_cases env request; intros H;
  try discriminate H; injection H as <- <-; simpl.

(** ** The invocation: general facts *)

Lemma phase1_before_phase2_split (t : Trace) :
  phase1_before_phase2 t = true ->
  forall pre ev post,
    t = pre ++ ev :: post -> isPhase2Event ev = true ->
    existsb isPhase1Event post = false.
Proof.
  intros Hord pre. revert t Hord.
  induction pre as [|x pre IH]; intros t Hord ev post Ht Hev; subst t; simpl in Hord.
  - rewrite Hev in Hord. apply andb_true_iff in Hord. destruct Hord as [Hpost _].
    now apply negb_true_iff in Hpost.
  - apply andb_true_iff in Hord. destruct Hord as [_ Hrest].
    exact (IH _ Hrest ev post eq_refl Hev).
Qed.

(** Every question is put to the surroundings at most once, and every
    collaborator is called at most once. *)
Lemma typedRun_consults_once (env : Env) (request : Request) :
  NoDup (trace (typedRun env request)).
Proof.
  run_cases env request;
    repeat (constructor; [ simpl; intuition discriminate | ]); constructor.
Qed.

(** The first phase is attempted exactly when the preconditions hold and its
    fail point is off. *)
Lemma key_characteristics_attempted (env : Env) (request : Request) :
  invoked isKeyCharacteristicsCall (trace (typedRun env request)) =
    preconditionsHold env request
    && negb (shouldFail env analyzeShardKeySkipCalcalutingKeyCharactericsMetrics).
Proof.
  unfold preconditionsHold. run_cases env request; reflexivity.
Qed.

(** The second phase is attempted exactly when the preconditions hold, the
    first phase did not throw, multitenancy support is off and the fail point
    of the second phase is off. *)
Lemma distribution_attempted (env : Env) (request : Request) :
  invoked isReadWriteDistributionCall (trace (typedRun env request)) =
    preconditionsHold env request
    && negb (keyCharacteristicsFails env request)
    && negb (gMultitenancySupport env)
    && negb (shouldFail env analyzeShardKeySkipCalcalutingReadWriteDistributionMetrics).
Proof.
  unfold preconditionsHold, keyCharacteristicsFails.
  run_cases env request; try reflexivity;
    repeat match goal with
           | |- context [match ?x with _ => _ end] => destruct x
           end; reflexivity.
Qed.

Lemma typedRun_phase_order (env : Env) (request : Request) :
  phase1_before_phase2 (trace (typedRun env request)) = true.
Proof.
  run_cases env request; reflexivity.
Qed.

(** ** Precondition checks *)

(** C2: the four precondition checks run in the fixed order (replication
    enabled, not an exclusively-config-role node, namespace validation,
    local validation of the collection options). The first check that fails
    ends the invocation with that check's own error (IllegalOperation with
    its own message for each of the first two, the validator's status for the
    other two), the trace then ends at the failed check, so that no event of
    either phase occurs, and the outcome is an exception and not a response.
    When all four pass, they are the first four events of the trace, in that
    order, and every collaborator call carries the collection identity the
    fourth check yielded. *)
Theorem typedRun_preconditions (env : Env) (request : Request) :
  let nss := ns request in
  let checks := [EvIsReplEnabled; EvExclusivelyHasConfigRole;
                 EvValidateNamespace nss; EvValidateCollectionOptionsLocally nss] in
  (isReplEnabled env = false ->
     typedRun env request =
       (firstn 1 checks, Threw (mkErrorInfo ErrorCodes.IllegalOperation kNotStandalone))) /\
  (isReplEnabled env = true -> exclusivelyHasConfigRole env = true ->
     typedRun env request =
       (firstn 2 checks, Threw (mkErrorInfo ErrorCodes.IllegalOperation kNotConfigsvr))) /\
  (forall e,
     isReplEnabled env = true -> exclusivelyHasConfigRole env = false ->
     validateNamespace env nss = Status_Error e ->
     typedRun env request = (firstn 3 checks, Threw e)) /\
  (forall e,
     isReplEnabled env = true -> exclusivelyHasConfigRole env = false ->
     validateNamespace env nss = Status_OK ->
     validateCollectionOptionsLocally env nss = StatusWith_Error e ->
     typedRun env request = (checks, Threw e)) /\
  (forall collUuid,
     isReplEnabled env = true -> exclusivelyHasConfigRole env = false ->
     validateNamespace env nss = Status_OK ->
     validateCollectionOptionsLocally env nss = StatusWith_Value collUuid ->
     exists rest,
       trace (typedRun env request) = checks ++ rest /\
       existsb isPreconditionEvent rest = false /\
       forall nss' uuid' key',
         In (EvCalculateKeyCharacteristicsMetrics nss' uuid' key') rest \/
         In (EvCalculateReadWriteDistributionMetrics nss' uuid' key') rest ->
         nss' = nss /\ uuid' = collUuid /\ key' = getKey request) /\
  (preconditionsHold env request = false ->
     (exists e, outcome (typedRun env request) = Threw e) /\
     invoked isPhase1Event (trace (typedRun env request)) = false /\
     invoked isPhase2Event (trace (typedRun env request)) = false) /\
  kNotStandalone <> kNotConfigsvr.
Proof.
  intros nss checks. subst nss checks.
  repeat split.
  - intros H. unfold_run. now rewrite H.
  - intros H1 H2. unfold_run. now rewrite H1, H2.
  - intros e H1 H2 H3. unfold_run. now rewrite H1, H2, H3.
  - intros e H1 H2 H3 H4. unfold_run. now rewrite H1, H2, H3, H4.
  - intros u H1 H2 H3 H4.
    run_cases env request; try discriminate;
      injection H4 as <-;
      eexists; (split; [ reflexivity | split; [ reflexivity | ] ]);
      intros nss' uuid' key' [Hin | Hin]; simpl in Hin;
      repeat (destruct Hin as [Hin | Hin]; [ try discriminate Hin | ]);
      try contradiction; try (injection Hin as <- <- <-; auto).
  - revert H. unfold preconditionsHold.
    run_cases env request; try discriminate; eauto.
  - revert H. unfold preconditionsHold.
    run_cases env request; try discriminate; reflexivity.
  - revert H. unfold preconditionsHold.
    run_cases env request; try discriminate; reflexivity.
  - discriminate.
Qed.

(** ** The assembled response *)

(** C3: on a deployment with multitenancy support enabled, a successful
    invocation returns a response with neither a read nor a write
    distribution, and the distribution collaborator is not called; the fail
    point of the distribution phase is left unconstrained (it is not even
    evaluated). *)
Theorem multitenancy_skips_distribution
  (env : Env) (request : Request) (t : Trace) (r : Response) :
  typedRun env request = (t, Returned r) ->
  gMultitenancySupport env = true ->
  getReadDistribution r = None /\ getWriteDistribution r = None /\
  invoked isReadWriteDistributionCall t = false /\
  invoked isPhase2Event t = false.
Proof.
  intros H Hmulti.
  success_cases env request H; try discriminate Hmulti; auto.
Qed.

(** C4: when the fail point of the key-characteristics phase is engaged, a
    successful invocation never calls the key-characteristics collaborator,
    and its response has neither key characteristics nor a note, whatever the
    collaborator would have answered. *)
Theorem key_characteristics_gate_engaged
  (env : Env) (request : Request) (t : Trace) (r : Response) :
  typedRun env request = (t, Returned r) ->
  shouldFail env analyzeShardKeySkipCalcalutingKeyCharactericsMetrics = true ->
  invoked isKeyCharacteristicsCall t = false /\
  getKeyCharacteristics r = None /\ getNote r = None.
Proof.
  intros H Hgate.
  success_cases env request H; try discriminate Hgate; auto.
Qed.

(** C7: in the response of a successful invocation the read and the write
    distribution are both present, and are then the pair the single call of
    the distribution collaborator returned, or both absent. *)
Theorem distribution_pair_together
  (env : Env) (request : Request) (t : Trace) (r : Response) :
  typedRun env request = (t, Returned r) ->
  (exists collUuid readDistribution writeDistribution,
     calculateReadWriteDistributionMetrics env (ns request) collUuid (getKey request)
       = Returned (readDistribution, writeDistribution) /\
     getReadDistribution r = Some readDistribution /\
     getWriteDistribution r = Some writeDistribution /\
     calls isReadWriteDistributionCall t = 1)
  \/
  (getReadDistribution r = None /\ getWriteDistribution r = None /\
   calls isReadWriteDistributionCall t = 0).
Proof.
  intros H.
  success_cases env request H;
    solve [ right; auto | left; eauto 10 ].
Qed.

(** C9: a response that carries a note carries key characteristics too. *)
Theorem note_implies_key_characteristics
  (env : Env) (request : Request) (t : Trace) (r : Response) (s : string) :
  typedRun env request = (t, Returned r) ->
  getNote r = Some s ->
  exists metrics, getKeyCharacteristics r = Some metrics.
Proof.
  intros H Hnote.
  success_cases env request H; simpl in Hnote; try discriminate Hnote; eauto.
Qed.

(** The advisory message is the text spelled out in [advisoryText]. *)
Lemma kOrphanDocsWarningMessage_text : kOrphanDocsWarningMessage = advisoryText.
Proof. reflexivity. Qed.

(** C10: whenever a successful invocation attaches a note, the note is the
    one constant [kOrphanDocsWarningMessage], a closed string that mentions
    no metric value: the warning built from the field names numOrphanDocs,
    numDocs, numDistinctValues and mostCommonValues that advises to rerun
    the command at some other time to get more accurate metrics. *)
Theorem note_is_fixed_text
  (env : Env) (request : Request) (t : Trace) (r : Response) (s : string) :
  typedRun env request = (t, Returned r) ->
  getNote r = Some s ->
  s = kOrphanDocsWarningMessage /\
  kOrphanDocsWarningMessage =
    ("If " ++ quoted "numOrphanDocs" ++ " is large relative to " ++ quoted "numDocs" ++
     ", you may want to rerun the command at some other time to get more accurate " ++
     quoted "numDistinctValues" ++ " and " ++ quoted "mostCommonValues" ++
     " metrics.")%string.
Proof.
  intros H Hnote. split; [ | reflexivity ].
  success_cases env request H; simpl in Hnote; try discriminate Hnote;
    now injection Hnote as <-.
Qed.

(** C1 (amended): in a successful invocation with the key-characteristics
    fail point off, the response holds the metrics the collaborator produced,
    and its note is the fixed advisory text exactly when those metrics report
    an orphan count, whatever the count is (zero included); the note is absent
    when the metrics report no orphan count, and when the fail point is on. *)
Theorem note_iff_orphan_count_reported
  (env : Env) (request : Request) (t : Trace) (r : Response) :
  typedRun env request = (t, Returned r) ->
  (shouldFail env analyzeShardKeySkipCalcalutingKeyCharactericsMetrics = false ->
     exists collUuid metrics,
       validateCollectionOptionsLocally env (ns request) = StatusWith_Value collUuid /\
       calculateKeyCharacteristicsMetrics env (ns request) collUuid (getKey request)
         = Returned metrics /\
       getKeyCharacteristics r = Some metrics /\
       (forall n, numOrphanDocs metrics = Some n ->
                  getNote r = Some kOrphanDocsWarningMessage) /\
       (numOrphanDocs metrics = None -> getNote r = None)) /\
  (shouldFail env analyzeShardKeySkipCalcalutingKeyCharactericsMetrics = true ->
     getNumOrphanDocs r = None /\ getNote r = None) /\
  (getNote r = Some kOrphanDocsWarningMessage <-> exists n, getNumOrphanDocs r = Some n) /\
  (getNote r = None <-> getNumOrphanDocs r = None).
Proof.
  intros H.
  success_cases env request H;
    unfold getNumOrphanDocs; simpl; try rewrite Horphans;
    (split; [ intros Hgate; try discriminate Hgate;
              exists collUuid, metrics; rewrite Horphans;
              repeat split; auto; intros; discriminate
            | split; [ intros Hgate; try discriminate Hgate; auto | ] ]);
    (split; split; intros Hx; eauto; try discriminate Hx;
     try (destruct Hx as [n Hn]; discriminate Hn)).
Qed.

(** ** Failure inside a phase *)

(** C6: when a collaborator that the invocation called throws [e], the
    invocation throws that same [e] and returns no response; the call is the
    last event of the trace (nothing is attempted after it) and the
    collaborator was called once (no retry). When it is the distribution
    collaborator that throws, the metrics the first phase may have produced
    are returned to nobody. *)
Theorem phase_error_aborts
  (env : Env) (request : Request)
  (nss : NamespaceString) (uuid : UUID) (key : BSONObj) (e : ErrorInfo) :
  (In (EvCalculateKeyCharacteristicsMetrics nss uuid key) (trace (typedRun env request)) ->
   calculateKeyCharacteristicsMetrics env nss uuid key = Threw e ->
     outcome (typedRun env request) = Threw e /\
     (exists pre, trace (typedRun env request)
                  = pre ++ [EvCalculateKeyCharacteristicsMetrics nss uuid key]) /\
     calls isKeyCharacteristicsCall (trace (typedRun env request)) = 1 /\
     calls isReadWriteDistributionCall (trace (typedRun env request)) = 0) /\
  (In (EvCalculateReadWriteDistributionMetrics nss uuid key) (trace (typedRun env request)) ->
   calculateReadWriteDistributionMetrics env nss uuid key = Threw e ->
     outcome (typedRun env request) = Threw e /\
     (exists pre, trace (typedRun env request)
                  = pre ++ [EvCalculateReadWriteDistributionMetrics nss uuid key]) /\
     calls isReadWriteDistributionCall (trace (typedRun env request)) = 1).
Proof.
  split; intros Hin Hthrow; revert Hin;
    run_cases env request; intros Hin;
    repeat (destruct Hin as [Hin | Hin]; [ try discriminate Hin | ]);
    try contradiction;
    injection Hin as <- <- <-;
    match goal with
    | Hc : ?c = _ |- _ =>
        match type of Hthrow with c = _ => rewrite Hc in Hthrow end
    end;
    try discriminate Hthrow; injection Hthrow as <-;
    repeat split; try reflexivity;
    match goal with
    | |- exists pre, ?l = pre ++ _ => exists (removelast l); reflexivity
    end.
Qed.

(** ** Order and independence of the phases *)

(** C5 (amended): in every invocation no event of the first phase follows an
    event of the second; whether the first phase is attempted does not depend
    on the multitenancy flag nor on the fail point of the second phase;
    whether the second phase is attempted does not depend on the fail point
    of the first phase, provided the key-characteristics collaborator does
    not throw; and a successful invocation with the first fail point on, the
    second off and multitenancy support off returns both distribution metrics
    and no key characteristics. *)
Theorem phases_ordered_and_independent (env : Env) (request : Request) :
  (forall pre ev post,
     trace (typedRun env request) = pre ++ ev :: post ->
     isPhase2Event ev = true ->
     existsb isPhase1Event post = false) /\
  (forall b multitenancy,
     invoked isKeyCharacteristicsCall
       (trace (typedRun
                 (setMultitenancySupport
                    (setFailPoint env
                       analyzeShardKeySkipCalcalutingReadWriteDistributionMetrics b)
                    multitenancy)
                 request))
     = invoked isKeyCharacteristicsCall (trace (typedRun env request))) /\
  (forall b,
     (forall collUuid err,
        validateCollectionOptionsLocally env (ns request) = StatusWith_Value collUuid ->
        calculateKeyCharacteristicsMetrics env (ns request) collUuid (getKey request)
          <> Threw err) ->
     invoked isReadWriteDistributionCall
       (trace (typedRun
                 (setFailPoint env analyzeShardKeySkipCalcalutingKeyCharactericsMetrics b)
                 request))
     = invoked isReadWriteDistributionCall (trace (typedRun env request))) /\
  (forall t r,
     typedRun env request = (t, Returned r) ->
     shouldFail env analyzeShardKeySkipCalcalutingKeyCharactericsMetrics = true ->
     shouldFail env analyzeShardKeySkipCalcalutingReadWriteDistributionMetrics = false ->
     gMultitenancySupport env = false ->
     exists collUuid readDistribution writeDistribution,
       calculateReadWriteDistributionMetrics env (ns request) collUuid (getKey request)
         = Returned (readDistribution, writeDistribution) /\
       getReadDistribution r = Some readDistribution /\
       getWriteDistribution r = Some writeDistribution /\
       getKeyCharacteristics r = None /\ getNote r = None).
Proof.
  repeat split.
  - intros pre ev post. apply phase1_before_phase2_split, typedRun_phase_order.
  - intros b multitenancy. now rewrite !key_characteristics_attempted.
  - intros b Hok. rewrite !distribution_attempted.
    assert (Hnofail : forall env',
               validateCollectionOptionsLocally env' = validateCollectionOptionsLocally env ->
               calculateKeyCharacteristicsMetrics env' = calculateKeyCharacteristicsMetrics env ->
               keyCharacteristicsFails env' request = false).
    { intros env' Hv Hc. unfold keyCharacteristicsFails. rewrite Hv, Hc.
      destruct (validateCollectionOptionsLocally env (ns request)) as [|u] eqn:Hu;
        [ apply andb_false_r | ].
      destruct (calculateKeyCharacteristicsMetrics env (ns request) u (getKey request))
        eqn:Hk; [ apply andb_false_r | ].
      exfalso. exact (Hok _ _ eq_refl Hk). }
    rewrite !Hnofail by reflexivity. reflexivity.
  - intros t r H Hgate1 Hgate2 Hmulti.
    success_cases env request H;
      try discriminate Hgate1; try discriminate Hgate2; try discriminate Hmulti;
      eauto 10.
Qed.

(** ** Authorization *)

(** C8: [doCheckAuthorization] throws Unauthorized exactly when the caller is
    not authorized for the action shardCollection on the resource pattern of
    the exact namespace of the request; it never throws anything else, asks
    the authorization session this one question and consults nothing the
    precondition checks read. In the dispatch of an invocation the check
    comes first: when it fails nothing of [typedRun] happens, when it passes
    [typedRun] follows. *)
Theorem authorization_check (env : Env) (request : Request) :
  let question := EvIsAuthorized (forExactNamespace (ns request)) shardCollection in
  let unauthorized := mkErrorInfo ErrorCodes.Unauthorized "Unauthorized" in
  (outcome (doCheckAuthorization env request) = Threw unauthorized <->
   isAuthorizedForActionsOnResource env (forExactNamespace (ns request)) shardCollection
     = false) /\
  (outcome (doCheckAuthorization env request) = Returned tt <->
   isAuthorizedForActionsOnResource env (forExactNamespace (ns request)) shardCollection
     = true) /\
  trace (doCheckAuthorization env request) = [question] /\
  (isAuthorizedForActionsOnResource env (forExactNamespace (ns request)) shardCollection
     = false ->
   runInvocation env request = ([question], Threw unauthorized)) /\
  (isAuthorizedForActionsOnResource env (forExactNamespace (ns request)) shardCollection
     = true ->
   runInvocation env request =
     (question :: trace (typedRun env request), outcome (typedRun env request))).
Proof.
  intros question unauthorized. subst question unauthorized.
  unfold runInvocation, doCheckAuthorization, trace, outcome, bind, query, uassert,
    ret, throw.
  destruct (isAuthorizedForActionsOnResource env (forExactNamespace (ns request))
              shardCollection); simpl;
    repeat split; intros; try discriminate; try reflexivity.
  now destruct (typedRun env request).
Qed.

(** ** Further properties of the invocation *)

(** The second phase is entered and its collaborator throws. *)
Definition readWriteDistributionFails (env : Env) (request : Request) : bool :=
  negb (gMultitenancySupport env)
  && negb (shouldFail env analyzeShardKeySkipCalcalutingReadWriteDistributionMetrics)
  && match validateCollectionOptionsLocally env (ns request) with
     | StatusWith_Value collUuid =>
         match calculateReadWriteDistributionMetrics env (ns request) collUuid
                 (getKey request) with
         | Threw _ => true
         | Returned _ => false
         end
     | StatusWith_Error _ => false
     end.

(** Two events consult the same thing: the same check, the same fail point,
    the same collaborator, the log or the authorization session. *)
Definition sameKind (a b : Event) : bool :=
  match a, b with
  | EvIsReplEnabled, EvIsReplEnabled => true
  | EvExclusivelyHasConfigRole, EvExclusivelyHasConfigRole => true
  | EvValidateNamespace _, EvValidateNamespace _ => true
  | EvValidateCollectionOptionsLocally _, EvValidateCollectionOptionsLocally _ => true
  | EvLog _ _ _ _, EvLog _ _ _ _ => true
  | EvShouldFail f, EvShouldFail g => FailPoint_eqb f g
  | EvCalculateKeyCharacteristicsMetrics _ _ _,
    EvCalculateKeyCharacteristicsMetrics _ _ _ => true
  | EvCalculateReadWriteDistributionMetrics _ _ _,
    EvCalculateReadWriteDistributionMetrics _ _ _ => true
  | EvIsAuthorized _ _, EvIsAuthorized _ _ => true
  | _, _ => false
  end.

Definition isLog (ev : Event) : bool :=
  match ev with
  | EvLog _ _ _ _ => true
  | _ => false
  end.



(** A response without its distribution records. *)
Definition withoutDistribution (r : Response) : Response :=
  mkResponse (getKeyCharacteristics r) None None (getNote r).

(** A response without what the first phase puts into it. *)
Definition withoutKeyCharacteristics (r : Response) : Response :=
  mkResponse None (getReadDistribution r) (getWriteDistribution r) None.

(** X1: whatever an invocation consults, it consults once: no check, no fail
    point and no collaborator appears twice in the trace, and the start of
    the analysis is logged at most once. *)
Theorem typedRun_each_kind_once (env : Env) (request : Request) (ev : Event) :
  In ev (trace (typedRun env request)) ->
  calls (sameKind ev) (trace (typedRun env request)) = 1.
Proof.
  unfold calls.
  run_cases env request; intros Hin;
    repeat (destruct Hin as [<- | Hin]; [ reflexivity | ]); contradiction.
Qed.


(** X3: an invocation returns a response exactly when the four precondition
    checks pass and neither phase, where it is entered, has a collaborator that
    throws. *)
Theorem typedRun_succeeds_iff (env : Env) (request : Request) :
  (exists r, outcome (typedRun env request) = Returned r) <->
  preconditionsHold env request = true /\
  keyCharacteristicsFails env request = false /\
  readWriteDistributionFails env request = false.
Proof.
  unfold preconditionsHold, keyCharacteristicsFails, readWriteDistributionFails.
  run_cases env request;
    repeat match goal with
           | |- context [match ?x with _ => _ end] => destruct x eqn:?
           end;
    simpl;
    (split;
     [ intros [r Hr]; try discriminate Hr; repeat split; congruence
     | intros (H1 & H2 & H3);
       try discriminate H1; try discriminate H2; try discriminate H3;
       try congruence; eexists; reflexivity ]).
Qed.

(** X4: in the response of a successful invocation the optional fields tell
    which collaborators were called: the key characteristics are present
    exactly when the key-characteristics collaborator was called, which is
    exactly when its fail point is off; each distribution record is present
    exactly when the distribution collaborator was called, which is exactly
    when multitenancy support is off and the fail point of that phase is
    off. *)
Theorem response_fields_reflect_calls
  (env : Env) (request : Request) (t : Trace) (r : Response) :
  typedRun env request = (t, Returned r) ->
  (getKeyCharacteristics r <> None <-> invoked isKeyCharacteristicsCall t = true) /\
  (invoked isKeyCharacteristicsCall t = true <->
   shouldFail env analyzeShardKeySkipCalcalutingKeyCharactericsMetrics = false) /\
  (getReadDistribution r <> None <-> invoked isReadWriteDistributionCall t = true) /\
  (getWriteDistribution r <> None <-> invoked isReadWriteDistributionCall t = true) /\
  (invoked isReadWriteDistributionCall t = true <->
   gMultitenancySupport env = false /\
   shouldFail env analyzeShardKeySkipCalcalutingReadWriteDistributionMetrics = false).
Proof.
  intros H.
  success_cases env request H;
    repeat split; intros; try discriminate; try reflexivity; try congruence;
    try (destruct H; congruence).
Qed.

(** X5: switching the second phase off, by the multitenancy flag or by its
    fail point, turns a successful invocation into a successful invocation
    whose response differs only in that both distribution records are
    absent. *)
Theorem skipping_distribution_keeps_rest
  (env : Env) (request : Request) (t : Trace) (r : Response) :
  typedRun env request = (t, Returned r) ->
  (exists t',
     typedRun (setMultitenancySupport env true) request
       = (t', Returned (withoutDistribution r))) /\
  (exists t',
     typedRun (setFailPoint env
                 analyzeShardKeySkipCalcalutingReadWriteDistributionMetrics true)
              request
       = (t', Returned (withoutDistribution r))).
Proof.
  revert t r. unfold setMultitenancySupport, setFailPoint.
  run_cases env request; intros t r H; try discriminate H; injection H as <- <-;
    split; eexists; reflexivity.
Qed.

(** X6: switching the first phase off by its fail point turns a successful
    invocation into a successful invocation whose response differs only in
    that the key characteristics and the note are absent. *)
Theorem skipping_key_characteristics_keeps_rest
  (env : Env) (request : Request) (t : Trace) (r : Response) :
  typedRun env request = (t, Returned r) ->
  exists t',
    typedRun (setFailPoint env analyzeShardKeySkipCalcalutingKeyCharactericsMetrics true)
             request
      = (t', Returned (withoutKeyCharacteristics r)).
Proof.
  revert t r. unfold setFailPoint.
  run_cases env request; intros t r H; try discriminate H; injection H as <- <-;
    try rewrite Hrw; simpl; eexists; reflexivity.
Qed.

(** X7: the start of the analysis is logged (id 6875001, with the namespace
    and the key of the request) exactly when the four precondition checks
    pass, once, right after the checks and before any fail point is evaluated
    or any collaborator called; an invocation that fails a check logs
    nothing. *)
Theorem start_logged_after_checks (env : Env) (request : Request) :
  calls isLog (trace (typedRun env request))
    = (if preconditionsHold env request then 1 else 0) /\
  (preconditionsHold env request = true ->
   exists rest,
     trace (typedRun env request) =
       [EvIsReplEnabled; EvExclusivelyHasConfigRole;
        EvValidateNamespace (ns request);
        EvValidateCollectionOptionsLocally (ns request);
        EvLog 6875001 "Start analyzing shard key" (ns request) (getKey request)]
       ++ rest /\
     existsb isLog rest = false).
Proof.
  unfold preconditionsHold, calls.
  run_cases env request;
    (split; [ reflexivity | intros Hpre; try discriminate Hpre ]);
    eexists; split; reflexivity.
Qed.


End AnalyzeShardKey.

(** ** Concrete invocations *)

(** The scenario of the specification: the namespace db.orders with the
    candidate shard key region (ascending), a collection of 1,000,000
    documents with 50 distinct regions. Here a namespace is a string, a
    collection identity a number, a shard key a list of fields with their
    directions, and a distribution record the number of sampled queries. *)
Definition ordersRequest : @Request string (list (string * Z)) :=
  mkRequest "db.orders" [("region", 1%Z)].

Definition ordersMetrics (orphans : option Z)
  : @KeyCharacteristicsMetrics (list (string * Z)) :=
  mkKeyCharacteristicsMetrics 1000000 50 orphans [].

(** A replica-set node that is no config server, on which both validations
    pass, both fail points are off, multitenancy support is off and the
    caller is authorized; [kc] and [rw] are what the two collaborators do. *)
Definition ordersEnv
  (kc : Outcome (@KeyCharacteristicsMetrics (list (string * Z))))
  (rw : Outcome (Z * Z))
  : @Env string Z (list (string * Z)) Z Z :=
  mkEnv true false
        (fun _ => Status_OK) (fun _ => StatusWith_Value 7%Z)
        (fun _ => false) false
        (fun _ _ _ => kc) (fun _ _ _ => rw)
        (fun _ _ => true).

(** A standalone node. *)
Definition standaloneEnv : @Env string Z (list (string * Z)) Z Z :=
  mkEnv false false
        (fun _ => Status_OK) (fun _ => StatusWith_Value 7%Z)
        (fun _ => false) false
        (fun _ _ _ => Returned (ordersMetrics None)) (fun _ _ _ => Returned (120%Z, 80%Z))
        (fun _ _ => true).

(** A caller without the shardCollection privilege. *)
Definition unprivilegedEnv : @Env string Z (list (string * Z)) Z Z :=
  mkEnv true false
        (fun _ => Status_OK) (fun _ => StatusWith_Value 7%Z)
        (fun _ => false) false
        (fun _ _ _ => Returned (ordersMetrics None)) (fun _ _ _ => Returned (120%Z, 80%Z))
        (fun _ _ => false).

Definition collaboratorError : ErrorInfo :=
  mkErrorInfo (ErrorCodes.Other 11601) "operation was interrupted".

(** The first four events of every invocation on db.orders that passes its
    precondition checks. *)
Definition ordersChecks : @Trace string Z (list (string * Z)) :=
  [EvIsReplEnabled; EvExclusivelyHasConfigRole;
   EvValidateNamespace "db.orders"; EvValidateCollectionOptionsLocally "db.orders"].

(** The scenario itself: no orphan count is reported. *)
Definition scenarioEnv : @Env string Z (list (string * Z)) Z Z :=
  ordersEnv (Returned (ordersMetrics None)) (Returned (120, 80)%Z).

(** The scenario with an orphan count of [n]. *)
Definition orphansEnv (n : Z) : @Env string Z (list (string * Z)) Z Z :=
  ordersEnv (Returned (ordersMetrics (Some n))) (Returned (120, 80)%Z).

(** The scenario with the key-characteristics fail point on. *)
Definition skippedEnv : @Env string Z (list (string * Z)) Z Z :=
  setFailPoint scenarioEnv analyzeShardKeySkipCalcalutingKeyCharactericsMetrics true.

(** The scenario on a multitenant deployment. *)
Definition multitenantEnv : @Env string Z (list (string * Z)) Z Z :=
  setMultitenancySupport scenarioEnv true.

(** The scenario with a key-characteristics collaborator that throws. *)
Definition failingEnv : @Env string Z (list (string * Z)) Z Z :=
  ordersEnv (Threw collaboratorError) (Returned (120, 80)%Z).

(** *** The scenarios of the specification *)

Example scenario_no_orphan_count :
  outcome (typedRun scenarioEnv ordersRequest)
  = Returned (mkResponse (Some (ordersMetrics None)) (Some 120%Z) (Some 80%Z) None).
Proof. reflexivity. Qed.

Example scenario_key_characteristics_skipped :
  outcome (typedRun skippedEnv ordersRequest)
  = Returned (mkResponse None (Some 120%Z) (Some 80%Z) None).
Proof. reflexivity. Qed.

Example scenario_multitenant :
  outcome (typedRun multitenantEnv ordersRequest)
  = Returned (mkResponse (Some (ordersMetrics None)) None None None).
Proof. reflexivity. Qed.

(** *** The theorems at concrete invocations *)

(** Evaluates a concrete invocation to its trace and response. *)
Ltac run_concrete := eexists _, _; split; [ vm_compute; reflexivity | ].

(** On a standalone node the invocation stops at the first check. *)
Lemma typedRun_preconditions_witness :
  isReplEnabled standaloneEnv = false /\
  typedRun standaloneEnv ordersRequest =
    ([EvIsReplEnabled], Threw (mkErrorInfo ErrorCodes.IllegalOperation kNotStandalone)).
Proof.
  split; [ reflexivity | ].
  exact (proj1 (typedRun_preconditions standaloneEnv ordersRequest) eq_refl).
Defined.

(** A multitenant deployment with the distribution fail point off. *)
Lemma multitenancy_skips_distribution_witness :
  exists t r,
    typedRun multitenantEnv ordersRequest = (t, Returned r) /\
    gMultitenancySupport multitenantEnv = true /\
    getReadDistribution r = None /\ getWriteDistribution r = None /\
    invoked isReadWriteDistributionCall t = false /\
    invoked isPhase2Event t = false.
Proof.
  run_concrete. split; [ reflexivity | ].
  exact (multitenancy_skips_distribution multitenantEnv ordersRequest _ _ eq_refl eq_refl).
Defined.

(** The key-characteristics fail point on. *)
Lemma key_characteristics_gate_engaged_witness :
  exists t r,
    typedRun skippedEnv ordersRequest = (t, Returned r) /\
    shouldFail skippedEnv analyzeShardKeySkipCalcalutingKeyCharactericsMetrics = true /\
    invoked isKeyCharacteristicsCall t = false /\
    getKeyCharacteristics r = None /\ getNote r = None.
Proof.
  run_concrete. split; [ reflexivity | ].
  exact (key_characteristics_gate_engaged skippedEnv ordersRequest _ _ eq_refl eq_refl).
Defined.

Lemma distribution_pair_together_witness :
  exists t r,
    typedRun scenarioEnv ordersRequest = (t, Returned r) /\
    getReadDistribution r = Some 120%Z /\ getWriteDistribution r = Some 80%Z.
Proof.
  run_concrete.
  destruct (distribution_pair_together scenarioEnv ordersRequest _ _ eq_refl)
    as [(u & rd & wd & Hcall & Hread & Hwrite & _) | (Hread & _)].
  - injection Hcall as <- <-. exact (conj Hread Hwrite).
  - discriminate Hread.
Defined.

Lemma note_implies_key_characteristics_witness :
  exists t r,
    typedRun (orphansEnv 12) ordersRequest = (t, Returned r) /\
    getNote r = Some kOrphanDocsWarningMessage /\
    exists metrics, getKeyCharacteristics r = Some metrics.
Proof.
  run_concrete. split; [ reflexivity | ].
  exact (note_implies_key_characteristics (orphansEnv 12) ordersRequest _ _ _
           eq_refl eq_refl).
Defined.

Lemma note_is_fixed_text_witness :
  exists t r,
    typedRun (orphansEnv 12) ordersRequest = (t, Returned r) /\
    getNote r = Some advisoryText /\
    advisoryText = kOrphanDocsWarningMessage.
Proof.
  run_concrete. split; [ reflexivity | ].
  exact (proj1 (note_is_fixed_text (orphansEnv 12) ordersRequest _ _ advisoryText
                  eq_refl eq_refl)).
Defined.

(** C1, as stated, fails: the collaborator reports an orphan count of zero,
    the fail point is off, the invocation succeeds, and the response carries
    the note. *)
Lemma zero_orphan_count_attaches_note :
  typedRun (orphansEnv 0) ordersRequest
  = (ordersChecks ++
     [EvLog 6875001 "Start analyzing shard key" "db.orders" [("region", 1%Z)];
      EvShouldFail analyzeShardKeySkipCalcalutingKeyCharactericsMetrics;
      EvCalculateKeyCharacteristicsMetrics "db.orders" 7%Z [("region", 1%Z)];
      EvShouldFail analyzeShardKeySkipCalcalutingReadWriteDistributionMetrics;
      EvCalculateReadWriteDistributionMetrics "db.orders" 7%Z [("region", 1%Z)]],
     Returned (mkResponse (Some (ordersMetrics (Some 0%Z))) (Some 120%Z) (Some 80%Z)
                          (Some kOrphanDocsWarningMessage))) /\
  shouldFail (orphansEnv 0) analyzeShardKeySkipCalcalutingKeyCharactericsMetrics = false /\
  getNumOrphanDocs
    (mkResponse (Some (ordersMetrics (Some 0%Z))) (Some 120%Z) (Some 80%Z)
                (Some kOrphanDocsWarningMessage)) = Some 0%Z /\
  ~ (forall t r,
       typedRun (orphansEnv 0) ordersRequest = (t, Returned r) ->
       getNumOrphanDocs r = Some 0%Z \/ getNumOrphanDocs r = None ->
       getNote r = None).
Proof.
  split; [ reflexivity | split; [ reflexivity | split; [ reflexivity | ] ] ].
  intros Hclaim.
  specialize (Hclaim _ _ eq_refl (or_introl eq_refl)).
  discriminate Hclaim.
Qed.

(** The amended C1 at the same invocation: the count is reported, so the
    note is there. *)
Lemma note_iff_orphan_count_reported_witness :
  exists t r,
    typedRun (orphansEnv 0) ordersRequest = (t, Returned r) /\
    getNumOrphanDocs r = Some 0%Z /\
    getNote r = Some kOrphanDocsWarningMessage.
Proof.
  run_concrete. split; [ reflexivity | ].
  apply (note_iff_orphan_count_reported (orphansEnv 0) ordersRequest _ _ eq_refl).
  exists 0%Z. reflexivity.
Defined.

(** The key-characteristics collaborator throws. *)
Lemma phase_error_aborts_witness :
  In (EvCalculateKeyCharacteristicsMetrics "db.orders" 7%Z [("region", 1%Z)])
     (trace (typedRun failingEnv ordersRequest)) /\
  calculateKeyCharacteristicsMetrics failingEnv "db.orders" 7%Z [("region", 1%Z)]
    = Threw collaboratorError /\
  outcome (typedRun failingEnv ordersRequest) = Threw collaboratorError.
Proof.
  assert (Hin : In (EvCalculateKeyCharacteristicsMetrics "db.orders" 7%Z [("region", 1%Z)])
                   (trace (typedRun failingEnv ordersRequest))).
  { simpl. do 6 right. left. reflexivity. }
  split; [ exact Hin | split; [ reflexivity | ] ].
  exact (proj1 (proj1 (phase_error_aborts failingEnv ordersRequest
                         "db.orders" 7%Z [("region", 1%Z)] collaboratorError)
                  Hin eq_refl)).
Defined.

(** C5, as stated, fails: with a key-characteristics collaborator that
    throws, the first phase running stops the second from being attempted,
    and skipping the first phase (nothing else changed) lets it run. *)
Lemma failed_first_phase_stops_second :
  invoked isKeyCharacteristicsCall (trace (typedRun failingEnv ordersRequest)) = true /\
  invoked isReadWriteDistributionCall (trace (typedRun failingEnv ordersRequest)) = false /\
  invoked isKeyCharacteristicsCall
    (trace (typedRun
              (setFailPoint failingEnv
                 analyzeShardKeySkipCalcalutingKeyCharactericsMetrics true)
              ordersRequest)) = false /\
  invoked isReadWriteDistributionCall
    (trace (typedRun
              (setFailPoint failingEnv
                 analyzeShardKeySkipCalcalutingKeyCharactericsMetrics true)
              ordersRequest)) = true /\
  ~ (forall b,
       invoked isReadWriteDistributionCall
         (trace (typedRun
                   (setFailPoint failingEnv
                      analyzeShardKeySkipCalcalutingKeyCharactericsMetrics b)
                   ordersRequest))
       = invoked isReadWriteDistributionCall (trace (typedRun failingEnv ordersRequest))).
Proof.
  repeat split.
  intros Hclaim. specialize (Hclaim true). discriminate Hclaim.
Qed.

(** The amended C5 at the scenario with the first fail point on. *)
Lemma phases_ordered_and_independent_witness :
  exists t r,
    typedRun skippedEnv ordersRequest = (t, Returned r) /\
    getReadDistribution r = Some 120%Z /\ getWriteDistribution r = Some 80%Z /\
    getKeyCharacteristics r = None.
Proof.
  run_concrete.
  destruct (proj2 (proj2 (proj2 (phases_ordered_and_independent skippedEnv ordersRequest)))
              _ _ eq_refl eq_refl eq_refl eq_refl)
    as (u & rd & wd & Hcall & Hread & Hwrite & Hkc & _).
  injection Hcall as <- <-. exact (conj Hread (conj Hwrite Hkc)).
Defined.

(** A caller without the privilege: nothing but the authorization question
    is asked. *)
Lemma authorization_check_witness :
  isAuthorizedForActionsOnResource unprivilegedEnv
    (forExactNamespace (ns ordersRequest)) shardCollection = false /\
  runInvocation unprivilegedEnv ordersRequest =
    ([EvIsAuthorized (forExactNamespace "db.orders") shardCollection],
     Threw (mkErrorInfo ErrorCodes.Unauthorized "Unauthorized")).
Proof.
  split; [ reflexivity | ].
  exact (proj1 (proj2 (proj2 (proj2
           (authorization_check unprivilegedEnv ordersRequest)))) eq_refl).
Defined.

(** *** The further properties at concrete invocations *)

Lemma typedRun_each_kind_once_witness :
  In (EvShouldFail analyzeShardKeySkipCalcalutingReadWriteDistributionMetrics)
     (trace (typedRun scenarioEnv ordersRequest)) /\
  calls (sameKind (EvShouldFail analyzeShardKeySkipCalcalutingReadWriteDistributionMetrics))
        (trace (typedRun scenarioEnv ordersRequest)) = 1.
Proof.
  assert (Hin : In (EvShouldFail
                      analyzeShardKeySkipCalcalutingReadWriteDistributionMetrics)
                   (trace (typedRun scenarioEnv ordersRequest))).
  { simpl. do 7 right. left. reflexivity. }
  split; [ exact Hin | ].
  exact (typedRun_each_kind_once scenarioEnv ordersRequest _ Hin).
Defined.


Lemma typedRun_succeeds_iff_witness :
  preconditionsHold scenarioEnv ordersRequest = true /\
  keyCharacteristicsFails scenarioEnv ordersRequest = false /\
  readWriteDistributionFails scenarioEnv ordersRequest = false /\
  exists r, outcome (typedRun scenarioEnv ordersRequest) = Returned r.
Proof.
  repeat (split; [ reflexivity | ]).
  exact (proj2 (typedRun_succeeds_iff scenarioEnv ordersRequest)
           (conj eq_refl (conj eq_refl eq_refl))).
Defined.

(** On a multitenant deployment only the key characteristics are there. *)
Lemma response_fields_reflect_calls_witness :
  exists t r,
    typedRun multitenantEnv ordersRequest = (t, Returned r) /\
    invoked isKeyCharacteristicsCall t = true /\
    getKeyCharacteristics r <> None.
Proof.
  run_concrete. split; [ reflexivity | ].
  exact (proj2 (proj1 (response_fields_reflect_calls multitenantEnv ordersRequest _ _
                         eq_refl)) eq_refl).
Defined.

Lemma skipping_distribution_keeps_rest_witness :
  exists t r,
    typedRun (orphansEnv 12) ordersRequest = (t, Returned r) /\
    exists t',
      typedRun (setMultitenancySupport (orphansEnv 12) true) ordersRequest
        = (t', Returned (withoutDistribution r)).
Proof.
  run_concrete.
  exact (proj1 (skipping_distribution_keeps_rest (orphansEnv 12) ordersRequest _ _
                  eq_refl)).
Defined.

Lemma skipping_key_characteristics_keeps_rest_witness :
  exists t r,
    typedRun (orphansEnv 12) ordersRequest = (t, Returned r) /\
    exists t',
      typedRun (setFailPoint (orphansEnv 12)
                  analyzeShardKeySkipCalcalutingKeyCharactericsMetrics true)
               ordersRequest
        = (t', Returned (withoutKeyCharacteristics r)).
Proof.
  run_concrete.
  exact (skipping_key_characteristics_keeps_rest (orphansEnv 12) ordersRequest _ _
           eq_refl).
Defined.

Lemma start_logged_after_checks_witness :
  preconditionsHold scenarioEnv ordersRequest = true /\
  exists rest,
    trace (typedRun scenarioEnv ordersRequest) =
      (ordersChecks ++
       [EvLog 6875001 "Start analyzing shard key" "db.orders" [("region", 1%Z)]])
      ++ rest /\
    existsb isLog rest = false.
Proof.
  split; [ reflexivity | ].
  exact (proj2 (start_logged_after_checks scenarioEnv ordersRequest) eq_refl).
Defined.

